(** * The drush Ansible module: a shallow embedding of [run_module]

    The repository is one Python function, [run_module] in [drush.py].  It
    reads four string parameters, decides which [drush] command line to run,
    runs it through [module.run_command] (or skips it in check mode), and
    leaves through [module.exit_json], [module.fail_json] or an uncaught
    Python exception.

    The embedding keeps the shape of the source: the [result] dictionary is
    a [gmap] from keys to Python values, the locals that the source binds on
    some paths only ([rc], [out], [err], [original_value]) are optional, and
    the statements run in a small state-and-exit monad whose state is the
    outside world together with the list of processes spawned so far.

    What the module takes from Ansible and from Python's library is not part
    of the repository and enters as follows: [exit_json] and [fail_json] end
    the run and receive the dictionary as it stands; [run_command] answers
    with an exit code and two strings, as decided by the world; [json.dumps]
    and [json.loads] are parameters; the drush binary has been found. *)

From Stdlib Require Import ZArith String Ascii List Bool Lia.
From stdpp Require Import base gmap strings list fin_maps.

Local Open Scope string_scope.
Local Open Scope Z_scope.

Set Warnings "-register-all".

(** ** Python values *)

(** The values that end up in [result]: what [json.loads] can return and
    what the module stores itself.  A float is kept by its literal. *)
Inductive pyval : Type :=
| PNone
| PBool (b : bool)
| PInt (z : Z)
| PFloat (literal : string)
| PStr (s : string)
| PList (items : list pyval)
| PDict (items : list (string * pyval)).

(** [v == s] for a Python value [v] and a [str] [s]: only a string is ever
    equal to a string. *)
Definition py_eq_str (v : pyval) (s : string) : bool :=
  match v with
  | PStr t => String.eqb t s
  | _ => false
  end.

(** Truth value of a [str]: the empty string is the only false one. *)
Definition truthy (s : string) : bool :=
  match s with
  | EmptyString => false
  | String _ _ => true
  end.

(** [str.rstrip()] without argument: trailing white space goes, that is
    tab, line feed, vertical tab, form feed, carriage return and space. *)
Definition isspace (c : ascii) : bool :=
  let n := nat_of_ascii c in
  ((9 <=? n)%nat && (n <=? 13)%nat) || (n =? 32)%nat.

Fixpoint rstrip (s : string) : string :=
  match s with
  | EmptyString => EmptyString
  | String c t =>
      match rstrip t with
      | EmptyString => if isspace c then EmptyString else String c EmptyString
      | t' => String c t'
      end
  end.

(** ** The module's interface *)

(** [module.params]: the four arguments of [module_args], all of type
    [str]; [name] and [value] default to the empty string. *)
Record params : Type := Params {
  path : string;
  command : string;
  name : string;
  value : string
}.

(** The [result] dictionary. *)
Abbreviation dict := (gmap string pyval).

Inductive exn : Type :=
| UnboundLocalError (var : string)
| ValueError (doc : string).

(** The three ways out of [run_module]. *)
Inductive outcome : Type :=
| exit_json (result : dict)
| fail_json (msg : string) (result : dict)
| raised (e : exn).

(** The two fixed sets of sub-command names. *)
Definition hates_format : gset string :=
  {[ "updb"; "updatedb"; "cc"; "cache-clear" ]}.

Definition safe_commands : gset string :=
  {[ "config-get"; "core-requirements"; "core-status"; "drupal-directory";
     "pm-info"; "pm-list"; "pm-projectinfo"; "search-status"; "state-get";
     "status"; "user-information"; "variable-get"; "watchdog-list";
     "watchdog-show" ]}.

Section Adapter.

(** The outside world: whatever decides what a spawned process answers.
    [run_command_os cmd cwd w] is the exit code, standard output and
    standard error of running [cmd] in directory [cwd], and the world
    afterwards. *)
Context {World : Type}.
Variable run_command_os : string -> string -> World -> (Z * string * string) * World.

(** [module.get_bin_path('drush', required=True)]: the located binary. *)
Variable drush : string.

(** [json.dumps] on a [str], and [json.loads]; [None] stands for the
    [ValueError] that [json.loads] raises on a malformed document. *)
Variable json_dumps : string -> string.
Variable json_loads : string -> option pyval.

(** *** State and monad *)

Record state : Type := State {
  world : World;
  spawned : list (string * string)
}.

Definition M (A : Type) : Type := state -> (outcome + A) * state.

Definition ret {A} (a : A) : M A := fun s => (inr a, s).

Definition bind {A B} (m : M A) (k : A -> M B) : M B :=
  fun s =>
    match m s with
    | (inl o, s') => (inl o, s')
    | (inr a, s') => k a s'
    end.

Definition leave {A} (o : outcome) : M A := fun s => (inl o, s).

(** [module.run_command(cmd, cwd=...)] *)
Definition run_command (cmd cwd : string) : M (Z * string * string) :=
  fun s =>
    let '(r, w') := run_command_os cmd cwd (world s) in
    (inr r, {| world := w'; spawned := spawned s ++ [(cmd, cwd)] |}).

(** Reading a local that may not have been assigned yet. *)
Definition local {A} (var : string) (v : option A) : M A :=
  match v with
  | Some a => ret a
  | None => leave (raised (UnboundLocalError var))
  end.

Notation "x <- m ;; k" := (bind m (fun x => k))
  (at level 100, m at next level, right associativity).
Notation "m ;;; k" := (bind m (fun _ : unit => k))
  (at level 100, right associativity).

(** *** Locals of [run_module] that change or may be unbound *)

Record frame : Type := Frame {
  l_command : string;
  l_rc : option Z;
  l_out : option string;
  l_err : option string;
  l_original_value : option string;
  l_result : dict
}.

Definition assign_command (c : string) (f : frame) : frame :=
  {| l_command := c; l_rc := l_rc f; l_out := l_out f; l_err := l_err f;
     l_original_value := l_original_value f; l_result := l_result f |}.

Definition assign_run (r : Z * string * string) (f : frame) : frame :=
  let '(rc, out, err) := r in
  {| l_command := l_command f; l_rc := Some rc; l_out := Some out;
     l_err := Some err; l_original_value := l_original_value f;
     l_result := l_result f |}.

Definition assign_original_value (v : string) (f : frame) : frame :=
  {| l_command := l_command f; l_rc := l_rc f; l_out := l_out f;
     l_err := l_err f; l_original_value := Some v; l_result := l_result f |}.

(** [result[key] = v] *)
Definition store (key : string) (v : pyval) (f : frame) : frame :=
  {| l_command := l_command f; l_rc := l_rc f; l_out := l_out f;
     l_err := l_err f; l_original_value := l_original_value f;
     l_result := <[key := v]> (l_result f) |}.

(** The seed of [result]. *)
Definition result_seed : dict :=
  <["stdout" := PStr ""]> (<["stderr" := PStr ""]>
    (<["rc" := PInt 0]> (<["changed" := PBool false]> ∅))).

(** *** Parameter checking for certain known commands *)

Definition check_parameters (p : params) : M unit :=
  (if String.eqb (command p) "variable-get" then
     if String.eqb (name p) "" then
       leave (fail_json "Variable name required" ∅)
     else ret tt
   else ret tt) ;;;
  if String.eqb (command p) "variable-set" then
    (if negb (truthy (name p)) then
       leave (fail_json "Variable name required" ∅)
     else ret tt) ;;;
    if String.eqb (command p) "variable-set" && negb (truthy (value p)) then
      leave (fail_json "Variable value required" ∅)
    else ret tt
  else ret tt.

(** *** Check-mode substitution, or the saved original value *)

Definition baseline_cmd (p : params) : string :=
  drush +:+ " vget --format=string --exact " +:+ name p.

Definition prepare (p : params) (check_mode : bool) (f : frame) : M frame :=
  if String.eqb (l_command f) "variable-set" then
    if check_mode then ret (assign_command "variable-get" f)
    else
      r <- run_command (baseline_cmd p) (path p) ;;
      let f := assign_run r f in
      rc <- local "rc" (l_rc f) ;;
      f <- (if rc =? 0 then
              out <- local "out" (l_out f) ;;
              ret (assign_original_value (rstrip out) f)
            else ret (assign_original_value "" f)) ;;
      original_value <- local "original_value" (l_original_value f) ;;
      ret (store "original_value" (PStr original_value) f)
  else ret f.

(** *** The command line *)

Definition cmd_extra (command name value : string) : string :=
  let cmd_extra := "" in
  let cmd_extra :=
    if truthy name then cmd_extra +:+ " " +:+ name else cmd_extra in
  let cmd_extra :=
    if String.eqb command "variable-get" || String.eqb command "variable-set"
    then cmd_extra +:+ " --exact" else cmd_extra in
  if String.eqb command "variable-set" then
    cmd_extra +:+ " '" +:+ json_dumps value +:+ "'"
  else if truthy value then cmd_extra +:+ " " +:+ value
  else cmd_extra.

Definition format (command : string) : string :=
  if negb (bool_decide (command ∈ hates_format)) then "--format=json"
  else "".

(** ["%s %s --nocolor -y %s%s" % (drush, command, format, cmd_extra)] *)
Definition command_line (command name value : string) : string :=
  drush +:+ " " +:+ command +:+ " --nocolor -y " +:+ format command
    +:+ cmd_extra command name value.

(** *** Running drush and reading its answer *)

(** [v = [] if out == '' else json.loads(out)], as a partial function
    and as the statement that raises where [json.loads] does. *)
Definition loads_or_empty (out : string) : option pyval :=
  if String.eqb out "" then Some (PList []) else json_loads out.

Definition decode (out : string) : M pyval :=
  match loads_or_empty out with
  | Some v => ret v
  | None => leave (raised (ValueError out))
  end.

Definition interpret (p : params) (check_mode : bool) (f : frame) : M frame :=
  rc <- local "rc" (l_rc f) ;;
  f <- (if rc =? 0 then
          out <- local "out" (l_out f) ;;
          v <- decode out ;;
          if String.eqb (l_command f) "variable-get" then
            let f := store (name p) v f in
            if check_mode && String.eqb (command p) "variable-set" then
              ret (store "changed" (PBool (negb (py_eq_str v (value p)))) f)
            else ret f
          else
            if negb (String.eqb out "") then ret (store "drush" v f)
            else ret f
        else ret f) ;;
  if negb (bool_decide (l_command f ∈ safe_commands)) then
    if String.eqb (l_command f) "variable-set" then
      original_value <- local "original_value" (l_original_value f) ;;
      ret (store "changed"
             (PBool (negb (String.eqb original_value (value p)))) f)
    else ret (store "changed" (PBool true) f)
  else ret f.

Definition execute (p : params) (check_mode : bool) (cmd : string)
    (f : frame) : M frame :=
  if negb check_mode || bool_decide (l_command f ∈ safe_commands) then
    r <- run_command cmd (path p) ;;
    let f := assign_run r f in
    rc <- local "rc" (l_rc f) ;;
    let f := store "rc" (PInt rc) f in
    err <- local "err" (l_err f) ;;
    let f := store "stderr" (PStr err) f in
    out <- local "out" (l_out f) ;;
    let f := store "stdout" (PStr out) f in
    interpret p check_mode f
  else ret f.

(** *** The whole function *)

Definition run_module_body (p : params) (check_mode : bool) : M Empty_set :=
  let f := {| l_command := command p; l_rc := None; l_out := None;
              l_err := None; l_original_value := None;
              l_result := result_seed |} in
  check_parameters p ;;;
  f <- prepare p check_mode f ;;
  let cmd := command_line (l_command f) (name p) (value p) in
  let f := store "cmd" (PStr cmd) f in
  f <- execute p check_mode cmd f ;;
  rc <- local "rc" (l_rc f) ;;
  (if negb (rc =? 0) then
     err <- local "err" (l_err f) ;;
     leave (fail_json err (l_result f))
   else ret tt) ;;;
  if check_mode then leave (exit_json (l_result f))
  else leave (exit_json (l_result f)).

(** [run_module] from a world in which nothing has been spawned yet:
    how it leaves, the processes it spawned in order (command line and
    working directory), and the world afterwards. *)
Definition run_module (p : params) (check_mode : bool) (w : World)
    : outcome * list (string * string) * World :=
  match run_module_body p check_mode {| world := w; spawned := [] |} with
  | (inl o, s) => (o, spawned s, world s)
  | (inr e, _) => match e with end
  end.

(** *** Vocabulary for the statements below *)

(** The value of [command] once lines 126-128 have run. *)
Definition effective_command (p : params) (check_mode : bool) : string :=
  if String.eqb (command p) "variable-set" && check_mode then "variable-get"
  else command p.

(** The command line of the one drush process that does the work. *)
Definition primary_cmd (p : params) (check_mode : bool) : string :=
  command_line (effective_command p check_mode) (name p) (value p).

(** Whether line 165 lets the primary command run. *)
Definition runs_primary (p : params) (check_mode : bool) : bool :=
  negb check_mode
  || bool_decide (effective_command p check_mode ∈ safe_commands).

(** The world in which the primary command runs: for a [variable-set]
    outside check mode the one left by the read of the original value,
    the initial one otherwise. *)
Definition world_before_primary (p : params) (check_mode : bool) (w : World)
    : World :=
  if String.eqb (command p) "variable-set" && negb check_mode
  then snd (run_command_os (baseline_cmd p) (path p) w)
  else w.

(** The parameter check lets the request through. *)
Definition well_formed (p : params) : Prop :=
  (command p = "variable-get" -> name p <> "") /\
  (command p = "variable-set" -> name p <> "" /\ value p <> "").

End Adapter.

(** The dictionary after the primary command ran, before its answer is
    interpreted. *)
Definition ran (cmd : string) (rc : Z) (out err : string) (seed : dict)
    : dict :=
  <["stdout" := PStr out]> (<["stderr" := PStr err]>
    (<["rc" := PInt rc]> (<["cmd" := PStr cmd]> seed))).

(** [a] occurs in [s] and the first [b] in [s] starts after the first
    [a]. *)
Definition occurs_before (a b s : string) : Prop :=
  exists i j : nat,
    index 0 a s = Some i /\ index 0 b s = Some j /\ (i < j)%nat.

(** ** A scripted world for the examples

    The world is the list of answers still to be given, one per spawned
    process; the decoder reads the scalar documents the examples use (a
    string without escapes, a decimal number); the encoder writes a string
    that needs no escape. *)
Module Fixture.

Definition answers : Type := list (Z * string * string).

Definition spawn (cmd cwd : string) (w : answers)
    : (Z * string * string) * answers :=
  match w with
  | [] => ((127, "", "drush: command not found"), [])
  | r :: w' => (r, w')
  end.

Definition dquote : ascii := ascii_of_nat 34.

Definition digit (c : ascii) : option Z :=
  let n := nat_of_ascii c in
  if (48 <=? n)%nat && (n <=? 57)%nat then Some (Z.of_nat (n - 48)) else None.

Fixpoint digits (acc : Z) (s : string) : option Z :=
  match s with
  | EmptyString => Some acc
  | String c t =>
      match digit c with
      | Some d => digits (10 * acc + d) t
      | None => None
      end
  end.

(** The text after an opening quote, up to the closing quote that ends
    the document. *)
Fixpoint quoted_tail (s : string) : option string :=
  match s with
  | EmptyString => None
  | String c t =>
      if Ascii.eqb c dquote then
        match t with EmptyString => Some EmptyString | _ => None end
      else if Ascii.eqb c (ascii_of_nat 92) then None
      else option_map (String c) (quoted_tail t)
  end.

Definition loads (s : string) : option pyval :=
  match s with
  | EmptyString => None
  | String c t =>
      if Ascii.eqb c dquote then option_map PStr (quoted_tail t)
      else if Ascii.eqb c "0" && truthy t then None
      else option_map PInt (digits 0 s)
  end.

Definition dumps (s : string) : string :=
  String dquote (s +:+ String dquote EmptyString).

Definition drush_bin : string := "/usr/bin/drush".

Definition run : params -> bool -> answers
    -> outcome * list (string * string) * answers :=
  run_module spawn drush_bin dumps loads.

(** The requests of the module's own examples, and a few more. *)
Definition site : string := "/var/www/www.example.com".

Definition status_request : params := Params site "core-status" "" "".
Definition get_request : params :=
  Params site "variable-get" "cron_safe_threshold" "".
Definition set_request : params :=
  Params site "variable-set" "page_cache_maximum_age" "3600".
Definition cc_request : params := Params site "cc" "" "".
Definition get_without_name : params := Params site "variable-get" "" "".


Definition set_baseline_cmd : string :=
  "/usr/bin/drush vget --format=string --exact page_cache_maximum_age".
Definition set_cmd : string :=
  "/usr/bin/drush variable-set --nocolor -y --format=json page_cache_maximum_age --exact '"
  +:+ dumps "3600" +:+ "'".

End Fixture.

(** ** The paths through [run_module]

    A request that the parameter check turns away, and the four ways a
    request that passes it can go.  Each way is given with the outcome it
    ends in, as a function of what the spawned processes answered. *)

(** The parameter check turns the request away. *)
Definition ill_formed (p : params) : Prop :=
  (command p = "variable-get" /\ name p = "") \/
  (command p = "variable-set" /\ (name p = "" \/ value p = "")).

(** The same as a test. *)
Definition valid (p : params) : bool :=
  negb (String.eqb (command p) "variable-get" && String.eqb (name p) "")
  && negb (String.eqb (command p) "variable-set"
           && (String.eqb (name p) "" || String.eqb (value p) "")).

(** The result a failure carries. *)
Definition failed_with (o : outcome) : dict :=
  match o with
  | fail_json _ r => r
  | _ => ∅
  end.

(** The keys a result has once the primary command has run. *)
Definition documented_keys (r : dict) : Prop :=
  is_Some (r !! "changed") /\ is_Some (r !! "rc") /\
  is_Some (r !! "stdout") /\ is_Some (r !! "stderr") /\
  is_Some (r !! "cmd").

(** The last character of [s] is white space. *)
Fixpoint ends_in_space (s : string) : bool :=
  match s with
  | EmptyString => false
  | String c EmptyString => isspace c
  | String _ t => ends_in_space t
  end.

(** Every character of [t] is white space. *)
Definition all_space (t : string) : bool :=
  forallb isspace (list_ascii_of_string t).

Section Paths.

Context {World : Type}.
Variable run_command_os : string -> string -> World -> (Z * string * string) * World.
Variable drush : string.
Variable json_dumps : string -> string.
Variable json_loads : string -> option pyval.

(** A [variable-set] in check mode, the get having answered. *)
Definition check_set_outcome (p : params) (rc : Z) (out err : string)
    : outcome :=
  let cmd := command_line drush json_dumps "variable-get" (name p) (value p) in
  let r := ran cmd rc out err result_seed in
  if rc =? 0 then
    match loads_or_empty json_loads out with
    | Some v =>
        exit_json (<["changed" := PBool (negb (py_eq_str v (value p)))]>
                     (<[name p := v]> r))
    | None => raised (ValueError out)
    end
  else fail_json err r.

(** A [variable-set] outside check mode, the read of the original value
    and the set having answered. *)
Definition real_set_outcome (p : params) (rc0 : Z) (out0 : string)
    (rc : Z) (out err : string) : outcome :=
  let original_value := if rc0 =? 0 then rstrip out0 else "" in
  let cmd := command_line drush json_dumps "variable-set" (name p) (value p) in
  let r := ran cmd rc out err
             (<["original_value" := PStr original_value]> result_seed) in
  let changed := PBool (negb (String.eqb original_value (value p))) in
  if rc =? 0 then
    match loads_or_empty json_loads out with
    | Some v =>
        exit_json (<["changed" := changed]>
                     (if String.eqb out "" then r else <["drush" := v]> r))
    | None => raised (ValueError out)
    end
  else fail_json err (<["changed" := changed]> r).

(** Any other command that is run. *)
Definition other_outcome (p : params) (rc : Z) (out err : string)
    : outcome :=
  let cmd := command_line drush json_dumps (command p) (name p) (value p) in
  let r := ran cmd rc out err result_seed in
  let mark (r : dict) :=
    if bool_decide (command p ∈ safe_commands) then r
    else <["changed" := PBool true]> r in
  if rc =? 0 then
    match loads_or_empty json_loads out with
    | Some v =>
        exit_json
          (mark (if String.eqb (command p) "variable-get"
                 then <[name p := v]> r
                 else if String.eqb out "" then r else <["drush" := v]> r))
    | None => raised (ValueError out)
    end
  else fail_json err (mark r).

(** The outcome of a run whose primary command answered [rc], [out] and
    [err]. *)
Definition settled (p : params) (check_mode : bool) (w : World)
    (rc : Z) (out err : string) : outcome :=
  if String.eqb (command p) "variable-set" then
    if check_mode then check_set_outcome p rc out err
    else
      let '(rc0, out0, _) :=
        fst (run_command_os (baseline_cmd drush p) (path p) w) in
      real_set_outcome p rc0 out0 rc out err
  else other_outcome p rc out err.

Inductive run_path (p : params) (check_mode : bool) (w : World)
    : outcome * list (string * string) * World -> Prop :=
| path_rejected :
    ill_formed p ->
    run_path p check_mode w
      (fail_json (if String.eqb (name p) "" then "Variable name required"
                  else "Variable value required") ∅, [], w)
| path_skipped :
    check_mode = true ->
    command p ∉ safe_commands -> command p <> "variable-set" ->
    run_path p check_mode w (raised (UnboundLocalError "rc"), [], w)
| path_check_set (rc : Z) (out err : string) (w' : World) :
    check_mode = true ->
    command p = "variable-set" -> name p <> "" -> value p <> "" ->
    run_command_os
      (command_line drush json_dumps "variable-get" (name p) (value p))
      (path p) w = ((rc, out, err), w') ->
    run_path p check_mode w
      (check_set_outcome p rc out err,
       [(command_line drush json_dumps "variable-get" (name p) (value p),
         path p)], w')
| path_real_set (rc0 : Z) (out0 err0 : string) (w1 : World)
    (rc : Z) (out err : string) (w2 : World) :
    check_mode = false ->
    command p = "variable-set" -> name p <> "" -> value p <> "" ->
    run_command_os (baseline_cmd drush p) (path p) w
      = ((rc0, out0, err0), w1) ->
    run_command_os
      (command_line drush json_dumps "variable-set" (name p) (value p))
      (path p) w1 = ((rc, out, err), w2) ->
    run_path p check_mode w
      (real_set_outcome p rc0 out0 rc out err,
       [(baseline_cmd drush p, path p);
        (command_line drush json_dumps "variable-set" (name p) (value p),
         path p)], w2)
| path_other (rc : Z) (out err : string) (w' : World) :
    command p <> "variable-set" ->
    (command p = "variable-get" -> name p <> "") ->
    check_mode = false \/ command p ∈ safe_commands ->
    run_command_os
      (command_line drush json_dumps (command p) (name p) (value p))
      (path p) w = ((rc, out, err), w') ->
    run_path p check_mode w
      (other_outcome p rc out err,
       [(command_line drush json_dumps (command p) (name p) (value p),
         path p)], w').

End Paths.

(** ** More requests for the scripted world *)
Module Scenario.

Definition updb_request : params := Params Fixture.site "updb" "" "".

(** A set whose value ends in a space. *)
Definition spaced_request : params :=
  Params Fixture.site "variable-set" "site_slogan" "Hello ".

Definition spaced_baseline_cmd : string :=
  "/usr/bin/drush vget --format=string --exact site_slogan".
Definition spaced_cmd : string :=
  "/usr/bin/drush variable-set --nocolor -y --format=json site_slogan --exact '"
  +:+ Fixture.dumps "Hello " +:+ "'".

Definition status_cmd : string :=
  "/usr/bin/drush core-status --nocolor -y --format=json".
Definition updb_cmd : string := "/usr/bin/drush updb --nocolor -y ".

(** The get that a check-mode run of [Fixture.set_request] amounts to. *)
Definition get_of_set : params :=
  Params Fixture.site "variable-get" "page_cache_maximum_age" "3600".

End Scenario.


Arguments ran : simpl never.
Arguments command_line : simpl never.
Arguments baseline_cmd : simpl never.
Arguments loads_or_empty : simpl never.
Arguments result_seed : simpl never.
Arguments rstrip : simpl never.

(** ** Facts about strings *)

Lemma truthy_false (s : string) : truthy s = false <-> s = "".
Proof. destruct s; simpl; split; congruence. Qed.

Lemma truthy_true (s : string) : s <> "" -> truthy s = true.
Proof. destruct s; simpl; congruence. Qed.

Lemma eqb_empty (s : string) : s <> "" -> String.eqb s "" = false.
Proof. intros H. now apply String.eqb_neq. Qed.

Lemma append_assoc (a b c : string) : (a +:+ b) +:+ c = a +:+ (b +:+ c).
Proof.
  induction a as [|x a IH]; [reflexivity|].
  change (String x ((a +:+ b) +:+ c) = String x (a +:+ (b +:+ c))).
  now rewrite IH.
Qed.

Lemma append_nil_l (a : string) : "" +:+ a = a.
Proof. reflexivity. Qed.

Lemma append_nil_r (a : string) : a +:+ "" = a.
Proof.
  induction a as [|x a IH]; [reflexivity|].
  change (String x (a +:+ "") = String x a). now rewrite IH.
Qed.

Lemma variable_get_safe : "variable-get" ∈ safe_commands.
Proof. unfold safe_commands. set_solver. Qed.

Lemma variable_set_unsafe : "variable-set" ∉ safe_commands.
Proof. apply (bool_decide_unpack _). vm_compute. exact I. Qed.


Lemma variable_set_likes_format : "variable-set" ∉ hates_format.
Proof. apply (bool_decide_unpack _). vm_compute. exact I. Qed.

(** ** Facts about [run_module] *)

Section AdapterFacts.

Context {World : Type}.
Variable run_command_os : string -> string -> World -> (Z * string * string) * World.
Variable drush : string.
Variable json_dumps : string -> string.
Variable json_loads : string -> option pyval.

Local Abbreviation run := (run_module run_command_os drush json_dumps json_loads).
Local Abbreviation cmdline := (command_line drush json_dumps).

(** Unfold the monad and the statements of [run_module]. *)
Ltac run_unfold :=
  unfold run_module, run_module_body, check_parameters, prepare, execute,
    interpret, decode, run_command, bind, ret, leave, local; cbn.

(** Settle the membership tests on the two variable commands. *)
Ltac known_commands :=
  repeat first
    [ rewrite (bool_decide_eq_true_2 _ variable_get_safe)
    | rewrite (bool_decide_eq_false_2 _ variable_set_unsafe)
    | progress cbn ].

Lemma ran_lookup (cmd : string) rc out err (seed : dict) (key : string) :
  key <> "stdout" -> key <> "stderr" -> key <> "rc" -> key <> "cmd" ->
  ran cmd rc out err seed !! key = seed !! key.
Proof.
  intros H1 H2 H3 H4. unfold ran.
  rewrite !lookup_insert_ne by congruence. reflexivity.
Qed.


Lemma command_line_set (n v : string) :
  n <> "" ->
  cmdline "variable-set" n v
  = drush +:+ " variable-set --nocolor -y --format=json " +:+ n
      +:+ " --exact '" +:+ json_dumps v +:+ "'".
Proof.
  intros Hn. unfold command_line, format, cmd_extra.
  rewrite (bool_decide_eq_false_2 _ variable_set_likes_format).
  rewrite (truthy_true _ Hn). cbn.
  rewrite !append_assoc. reflexivity.
Qed.

(** The paths through [run_module] on which the primary command runs. *)

Lemma check_mode_set (p : params) (w w' : World) rc out err :
  command p = "variable-set" -> name p <> "" -> value p <> "" ->
  run_command_os (cmdline "variable-get" (name p) (value p)) (path p) w
    = ((rc, out, err), w') ->
  run p true w =
    (let cmd := cmdline "variable-get" (name p) (value p) in
     let r := ran cmd rc out err result_seed in
     if rc =? 0 then
       match loads_or_empty json_loads out with
       | Some v =>
           exit_json (<["changed" := PBool (negb (py_eq_str v (value p)))]>
                        (<[name p := v]> r))
       | None => raised (ValueError out)
       end
     else fail_json err r,
     [(cmdline "variable-get" (name p) (value p), path p)], w').
Proof.
  intros Hc Hn Hv Hrun.
  run_unfold. rewrite Hc. cbn.
  rewrite (truthy_true _ Hn), (truthy_true _ Hv). cbn.
  known_commands. rewrite Hrun. cbn.
  destruct (rc =? 0) eqn:Hrc; cbn.
  - destruct (loads_or_empty json_loads out) as [v|]; cbn; [|reflexivity].
    known_commands. rewrite Hrc. reflexivity.
  - known_commands. rewrite Hrc. reflexivity.
Qed.

Lemma real_set (p : params) (w w1 w2 : World) rc0 out0 err0 rc out err :
  command p = "variable-set" -> name p <> "" -> value p <> "" ->
  run_command_os (baseline_cmd drush p) (path p) w = ((rc0, out0, err0), w1) ->
  run_command_os (cmdline "variable-set" (name p) (value p)) (path p) w1
    = ((rc, out, err), w2) ->
  run p false w =
    (let original_value := if rc0 =? 0 then rstrip out0 else "" in
     let cmd := cmdline "variable-set" (name p) (value p) in
     let r := ran cmd rc out err
                (<["original_value" := PStr original_value]> result_seed) in
     let changed := PBool (negb (String.eqb original_value (value p))) in
     if rc =? 0 then
       match loads_or_empty json_loads out with
       | Some v =>
           exit_json (<["changed" := changed]>
                        (if String.eqb out "" then r else <["drush" := v]> r))
       | None => raised (ValueError out)
       end
     else fail_json err (<["changed" := changed]> r),
     [(baseline_cmd drush p, path p);
      (cmdline "variable-set" (name p) (value p), path p)], w2).
Proof.
  intros Hc Hn Hv Hbase Hrun.
  run_unfold. rewrite Hc. cbn.
  rewrite (truthy_true _ Hn), (truthy_true _ Hv). cbn.
  rewrite Hbase. cbn.
  destruct (rc0 =? 0) eqn:Hrc0; cbn; rewrite Hrun; cbn;
    (destruct (rc =? 0) eqn:Hrc; cbn;
     [ destruct (loads_or_empty json_loads out) as [v|]; cbn; [|reflexivity];
       destruct (String.eqb out "") eqn:Hout; cbn; known_commands;
       rewrite Hrc; reflexivity
     | known_commands; rewrite Hrc; reflexivity ]).
Qed.

Lemma other_command (p : params) (check_mode : bool) (w w' : World)
    rc out err :
  command p <> "variable-set" ->
  (command p = "variable-get" -> name p <> "") ->
  check_mode = false \/ command p ∈ safe_commands ->
  run_command_os (cmdline (command p) (name p) (value p)) (path p) w
    = ((rc, out, err), w') ->
  run p check_mode w =
    (let cmd := cmdline (command p) (name p) (value p) in
     let r := ran cmd rc out err result_seed in
     let mark (r : dict) :=
       if bool_decide (command p ∈ safe_commands) then r
       else <["changed" := PBool true]> r in
     if rc =? 0 then
       match loads_or_empty json_loads out with
       | Some v =>
           exit_json
             (mark (if String.eqb (command p) "variable-get"
                    then <[name p := v]> r
                    else if String.eqb out "" then r else <["drush" := v]> r))
       | None => raised (ValueError out)
       end
     else fail_json err (mark r),
     [(cmdline (command p) (name p) (value p), path p)], w').
Proof.
  intros Hc Hn Hexec Hrun.
  apply String.eqb_neq in Hc.
  assert (Hgo : negb check_mode || bool_decide (command p ∈ safe_commands)
                = true).
  { destruct Hexec as [-> | Hs]; [reflexivity|].
    rewrite (bool_decide_eq_true_2 _ Hs). apply orb_true_r. }
  assert (Hchk : (if String.eqb (command p) "variable-get"
                  then String.eqb (name p) "" else false) = false).
  { destruct (String.eqb (command p) "variable-get") eqn:Hg; [|reflexivity].
    apply eqb_empty, Hn. now apply String.eqb_eq. }
  run_unfold. rewrite Hc. cbn.
  destruct (String.eqb (command p) "variable-get") eqn:Hg;
    rewrite ?Hchk; cbn; rewrite Hgo; cbn; rewrite Hrun; cbn;
    destruct (bool_decide (command p ∈ safe_commands)) eqn:Hs;
    destruct (rc =? 0) eqn:Hrc; cbn;
    try (destruct (loads_or_empty json_loads out) as [v|]; cbn;
         [|reflexivity]);
    try destruct (String.eqb out "") eqn:Hout;
    destruct check_mode;
    repeat (cbn; rewrite ?Hc, ?Hrc, ?Hg, ?Hs); reflexivity.
Qed.

(** ** The claims *)

(** C1 (the code departs from the claim).  In check mode, for a command
    that is neither in the read-only list nor [variable-set], no process
    is spawned, as claimed; but no outcome with [changed = false] and
    [rc = 0] is returned: line 197 reads the local [rc], which no
    statement on this path has assigned, and the function ends in
    [UnboundLocalError]. *)
Theorem C1_check_mode_skip_reads_unbound_rc (p : params) (w : World) :
  command p ∉ safe_commands -> command p <> "variable-set" ->
  run p true w = (raised (UnboundLocalError "rc"), [], w).
Proof.
  intros Hsafe Hset.
  assert (Hget : String.eqb (command p) "variable-get" = false).
  { apply String.eqb_neq. intros E. apply Hsafe. rewrite E.
    exact variable_get_safe. }
  apply String.eqb_neq in Hset.
  unfold run_module, run_module_body, check_parameters, prepare, execute,
    bind, ret, leave, local. cbn.
  rewrite Hget, Hset. cbn.
  rewrite (bool_decide_eq_false_2 _ Hsafe). cbn. reflexivity.
Qed.



(** C4.  A [variable-get] without a name, and a [variable-set] without a
    name or without a value, fail with the message that names the missing
    parameter, whatever the mode, and nothing has been spawned. *)
Theorem C4_missing_parameter_fails_first (p : params) (check_mode : bool)
    (w : World) :
  (command p = "variable-get" /\ name p = "") \/
  (command p = "variable-set" /\ (name p = "" \/ value p = "")) ->
  run p check_mode w
  = (fail_json (if String.eqb (name p) "" then "Variable name required"
                else "Variable value required") ∅, [], w).
Proof.
  intros [[Hc Hn] | [Hc Hnv]]; run_unfold; rewrite Hc; cbn.
  - rewrite Hn. reflexivity.
  - destruct (name p) as [|c n] eqn:Hn; cbn; [reflexivity|].
    destruct Hnv as [Hn' | Hv]; [discriminate|]. rewrite Hv. reflexivity.
Qed.



(** C7 (amended).  The command line is, in this order: the drush binary
    and the sub-command that is run in the end ([variable-get] for a
    [variable-set] in check mode); the flags [--nocolor -y]; then
    [--format=json], left out exactly for [updb], [updatedb], [cc] and
    [cache-clear]; the name when there is one; [--exact] when the
    sub-command is [variable-get] or [variable-set]; and the value, between
    single quotes and JSON-encoded when the sub-command is [variable-set],
    bare when there is one otherwise. *)
Theorem C7_command_line_layout (p : params) (check_mode : bool) :
  let c := effective_command p check_mode in
  primary_cmd drush json_dumps p check_mode
  = String.concat ""
      [ drush; " "; c; " --nocolor -y ";
        if bool_decide (c ∈ hates_format) then "" else "--format=json";
        if String.eqb (name p) "" then "" else " " +:+ name p;
        if String.eqb c "variable-get" || String.eqb c "variable-set"
        then " --exact" else "";
        if String.eqb c "variable-set"
        then " '" +:+ json_dumps (value p) +:+ "'"
        else if String.eqb (value p) "" then "" else " " +:+ value p ].
Proof.
  intros c. unfold primary_cmd, command_line, format, cmd_extra.
  fold c. cbn.
  destruct (bool_decide (c ∈ hates_format)); cbn;
    destruct (name p) as [|x n]; cbn;
    destruct (String.eqb c "variable-get"); cbn;
    destruct (String.eqb c "variable-set"); cbn;
    destruct (value p) as [|y v]; cbn;
    repeat first [ rewrite append_nil_l | rewrite append_nil_r
                 | rewrite append_assoc ];
    reflexivity.
Qed.




End AdapterFacts.

(** ** The claims on the scripted world *)

(** The scenarios of a set request outside check mode: the stored value
    already is the requested one; and, run twice from a different value,
    the first run changes and the second does not. *)
Example set_of_the_stored_value_changes_nothing :
  exists r,
    Fixture.run Fixture.set_request false [(0, "3600", ""); (0, "", "")]
    = (exit_json r,
       [(Fixture.set_baseline_cmd, Fixture.site);
        (Fixture.set_cmd, Fixture.site)], []) /\
    r !! "changed" = Some (PBool false) /\
    r !! "original_value" = Some (PStr "3600").
Proof. eexists. repeat split; vm_compute; reflexivity. Qed.

Example failing_command_fails_the_module :
  exists r,
    Fixture.run Fixture.status_request false [(2, "", "command not found")]
    = (fail_json "command not found" r,
       [("/usr/bin/drush core-status --nocolor -y --format=json",
         Fixture.site)], []) /\
    r !! "rc" = Some (PInt 2) /\ r !! "changed" = Some (PBool false).
Proof. eexists. repeat split; vm_compute; reflexivity. Qed.

(** C1 at [drush cc] in check mode: nothing is spawned and the run ends in
    the unbound [rc]. *)
Lemma C1_witness :
  (command Fixture.cc_request ∉ safe_commands) /\
  command Fixture.cc_request <> "variable-set" /\
  Fixture.run Fixture.cc_request true []
  = (raised (UnboundLocalError "rc"), [], []).
Proof.
  assert (H1 : command Fixture.cc_request ∉ safe_commands)
    by (apply (bool_decide_unpack _); vm_compute; exact I).
  assert (H2 : command Fixture.cc_request <> "variable-set") by discriminate.
  split; [exact H1 | split; [exact H2 |]].
  exact (C1_check_mode_skip_reads_unbound_rc Fixture.spawn Fixture.drush_bin
           Fixture.dumps Fixture.loads Fixture.cc_request [] H1 H2).
Defined.



(** C4 at a [variable-get] without a name. *)
Lemma C4_witness :
  ((command Fixture.get_without_name = "variable-get" /\
    name Fixture.get_without_name = "") \/
   (command Fixture.get_without_name = "variable-set" /\
    (name Fixture.get_without_name = "" \/
     value Fixture.get_without_name = ""))) /\
  Fixture.run Fixture.get_without_name false [(0, "0", "")]
  = (fail_json "Variable name required" ∅, [], [(0, "0", "")]).
Proof.
  assert (H : (command Fixture.get_without_name = "variable-get" /\
               name Fixture.get_without_name = "") \/
              (command Fixture.get_without_name = "variable-set" /\
               (name Fixture.get_without_name = "" \/
                value Fixture.get_without_name = "")))
    by (left; split; reflexivity).
  split; [exact H|].
  exact (C4_missing_parameter_fails_first Fixture.spawn Fixture.drush_bin
           Fixture.dumps Fixture.loads Fixture.get_without_name false
           [(0, "0", "")] H).
Defined.





(** C7 fails as stated: [--format=json] comes after [--nocolor -y], not
    before it; and the value of a set request in check mode goes on the
    command line bare, after the sub-command has become [variable-get],
    not JSON-encoded. *)
Lemma C7_counterexample :
  primary_cmd Fixture.drush_bin Fixture.dumps Fixture.status_request false
    = "/usr/bin/drush core-status --nocolor -y --format=json" /\
  ~ occurs_before "--format=json" "--nocolor"
      (primary_cmd Fixture.drush_bin Fixture.dumps Fixture.status_request
         false) /\
  primary_cmd Fixture.drush_bin Fixture.dumps Fixture.set_request true
    = "/usr/bin/drush variable-get --nocolor -y --format=json page_cache_maximum_age --exact 3600" /\
  index 0 (Fixture.dumps "3600")
    (primary_cmd Fixture.drush_bin Fixture.dumps Fixture.set_request true)
    = None.
Proof.
  split; [vm_compute; reflexivity|]. split.
  - intros (i & j & Hi & Hj & Hlt).
    vm_compute in Hi, Hj. injection Hi as <-. injection Hj as <-. lia.
  - split; vm_compute; reflexivity.
Qed.





(** ** More about [rstrip] *)

Lemma rstrip_cons (c : ascii) (t : string) :
  rstrip (String c t)
  = match rstrip t with
    | EmptyString => if isspace c then EmptyString else String c EmptyString
    | t' => String c t'
    end.
Proof. reflexivity. Qed.

(** What [rstrip] takes away is a run of white space at the end, and what
    it leaves does not end in white space. *)
Lemma rstrip_spec (s : string) :
  exists t : string,
    s = rstrip s +:+ t /\ all_space t = true /\
    ends_in_space (rstrip s) = false.
Proof.
  induction s as [|c s (t & Hs & Ht & He)].
  - exists "". repeat split.
  - rewrite rstrip_cons. destruct (rstrip s) as [|d r] eqn:Hr.
    + change ("" +:+ t) with t in Hs. subst t.
      destruct (isspace c) eqn:Hc.
      * exists (String c s). repeat split.
        unfold all_space in *. cbn. now rewrite Hc.
      * exists s. repeat split; [exact Ht | exact Hc].
    + exists t. repeat split; [|exact Ht | exact He].
      change (String c s = String c (String d r +:+ t)). now rewrite <- Hs.
Qed.

(** ** More about [run_module] *)

Section AdapterPaths.

Context {World : Type}.
Variable run_command_os : string -> string -> World -> (Z * string * string) * World.
Variable drush : string.
Variable json_dumps : string -> string.
Variable json_loads : string -> option pyval.

Local Abbreviation run := (run_module run_command_os drush json_dumps json_loads).
Local Abbreviation cmdline := (command_line drush json_dumps).
Local Abbreviation path_of := (run_path run_command_os drush json_dumps json_loads).

Lemma ill_formed_rejected (p : params) (check_mode : bool) (w : World) :
  ill_formed p ->
  run p check_mode w
  = (fail_json (if String.eqb (name p) "" then "Variable name required"
                else "Variable value required") ∅, [], w).
Proof.
  intros [[Hc Hn] | [Hc Hnv]];
    unfold run_module, run_module_body, check_parameters, bind, ret, leave;
    cbn; rewrite Hc; cbn.
  - rewrite Hn. reflexivity.
  - destruct (name p) as [|c n] eqn:Hn; cbn; [reflexivity|].
    destruct Hnv as [Hn' | Hv]; [discriminate|]. rewrite Hv. reflexivity.
Qed.

Lemma check_mode_skipped (p : params) (w : World) :
  command p ∉ safe_commands -> command p <> "variable-set" ->
  run p true w = (raised (UnboundLocalError "rc"), [], w).
Proof.
  intros Hsafe Hset.
  assert (Hget : String.eqb (command p) "variable-get" = false).
  { apply String.eqb_neq. intros E. apply Hsafe. rewrite E.
    exact variable_get_safe. }
  apply String.eqb_neq in Hset.
  unfold run_module, run_module_body, check_parameters, prepare, execute,
    bind, ret, leave, local. cbn.
  rewrite Hget, Hset. cbn.
  rewrite (bool_decide_eq_false_2 _ Hsafe). cbn. reflexivity.
Qed.

(** Every run takes one of the five paths. *)
Lemma run_paths (p : params) (check_mode : bool) (w : World) :
  path_of p check_mode w (run p check_mode w).
Proof.
  destruct (String.eqb_spec (command p) "variable-set") as [Hs | Hs].
  - destruct (String.eqb_spec (name p) "") as [Hn | Hn].
    { rewrite ill_formed_rejected by (right; auto).
      apply path_rejected. right; auto. }
    destruct (String.eqb_spec (value p) "") as [Hv | Hv].
    { rewrite ill_formed_rejected by (right; auto).
      apply path_rejected. right; auto. }
    destruct check_mode.
    + destruct (run_command_os (cmdline "variable-get" (name p) (value p))
                  (path p) w) as [[[rc out] err] w'] eqn:Hrun.
      rewrite (check_mode_set _ _ _ _ _ _ _ _ _ _ Hs Hn Hv Hrun).
      now apply path_check_set.
    + destruct (run_command_os (baseline_cmd drush p) (path p) w)
        as [[[rc0 out0] err0] w1] eqn:Hbase.
      destruct (run_command_os (cmdline "variable-set" (name p) (value p))
                  (path p) w1) as [[[rc out] err] w2] eqn:Hrun.
      rewrite (real_set _ _ _ _ _ _ _ _ _ _ _ _ _ _ Hs Hn Hv Hbase Hrun).
      now apply (path_real_set _ _ _ _ _ _ _ rc0 out0 err0 w1 rc out err w2).
  - assert (Hwf : (command p = "variable-get" -> name p <> "")
                  \/ ill_formed p).
    { destruct (String.eqb_spec (command p) "variable-get") as [Hg | Hg];
        [|left; congruence].
      destruct (String.eqb_spec (name p) "") as [Hn | Hn];
        [right; left; auto | left; auto]. }
    destruct Hwf as [Hg | Hill].
    2:{ rewrite ill_formed_rejected by assumption.
        now apply path_rejected. }
    destruct (decide (command p ∈ safe_commands)) as [Hin | Hout].
    + destruct (run_command_os (cmdline (command p) (name p) (value p))
                  (path p) w) as [[[rc out] err] w'] eqn:Hrun.
      rewrite (other_command _ _ _ _ p check_mode w w' rc out err Hs Hg
                 (or_intror Hin) Hrun).
      apply path_other; auto.
    + destruct check_mode.
      * rewrite check_mode_skipped by assumption.
        now apply path_skipped.
      * destruct (run_command_os (cmdline (command p) (name p) (value p))
                    (path p) w) as [[[rc out] err] w'] eqn:Hrun.
        rewrite (other_command _ _ _ _ p false w w' rc out err Hs Hg
                   (or_introl eq_refl) Hrun).
        apply path_other; auto.
Qed.

Lemma valid_ill_formed (p : params) : ill_formed p -> valid p = false.
Proof.
  unfold valid. intros [[Hc Hn] | [Hc [Hn | Hv]]]; rewrite Hc; cbn.
  - now rewrite Hn.
  - now rewrite Hn.
  - rewrite Hv. now destruct (String.eqb (name p) "").
Qed.

Lemma valid_set (p : params) :
  command p = "variable-set" -> name p <> "" -> value p <> "" ->
  valid p = true.
Proof.
  intros Hc Hn Hv. unfold valid. rewrite Hc. cbn.
  now rewrite (eqb_empty _ Hn), (eqb_empty _ Hv).
Qed.

Lemma valid_other (p : params) :
  command p <> "variable-set" ->
  (command p = "variable-get" -> name p <> "") -> valid p = true.
Proof.
  intros Hc Hn. unfold valid. apply String.eqb_neq in Hc. rewrite Hc. cbn.
  destruct (String.eqb_spec (command p) "variable-get") as [Hg | Hg];
    [|reflexivity].
  now rewrite (eqb_empty _ (Hn Hg)).
Qed.

Lemma ran_own (cmd : string) rc out err (seed : dict) :
  ran cmd rc out err seed !! "rc" = Some (PInt rc) /\
  ran cmd rc out err seed !! "stdout" = Some (PStr out) /\
  ran cmd rc out err seed !! "stderr" = Some (PStr err) /\
  ran cmd rc out err seed !! "cmd" = Some (PStr cmd).
Proof.
  unfold ran. repeat split;
    repeat first [ apply lookup_insert_eq
                 | rewrite lookup_insert_ne by discriminate ].
Qed.

(** The outcome and the last world of a run whose primary command ran. *)
Lemma primary_ran (p : params) (check_mode : bool) (w w' : World)
    rc out err :
  well_formed p -> runs_primary p check_mode = true ->
  run_command_os (primary_cmd drush json_dumps p check_mode) (path p)
    (world_before_primary run_command_os drush p check_mode w)
    = ((rc, out, err), w') ->
  fst (fst (run p check_mode w))
    = settled run_command_os drush json_dumps json_loads p check_mode w
        rc out err /\
  snd (run p check_mode w) = w'.
Proof.
  intros [Hget Hset] Hgo Hrun.
  unfold primary_cmd, runs_primary, world_before_primary, effective_command,
    settled in *.
  destruct (String.eqb (command p) "variable-set") eqn:Hc.
  - apply String.eqb_eq in Hc. destruct (Hset Hc) as [Hn Hv].
    destruct check_mode; cbn in *.
    + now rewrite (check_mode_set _ _ _ _ _ _ _ _ _ _ Hc Hn Hv Hrun).
    + destruct (run_command_os (baseline_cmd drush p) (path p) w)
        as [[[rc0 out0] err0] w1] eqn:Hbase. cbn in Hrun.
      rewrite Hc in Hrun.
      now rewrite (real_set _ _ _ _ _ _ _ _ _ _ _ _ _ _ Hc Hn Hv Hbase Hrun).
  - cbn in *. apply String.eqb_neq in Hc.
    assert (Hexec : check_mode = false \/ command p ∈ safe_commands).
    { destruct check_mode; [right|left; reflexivity].
      cbn in Hgo. now apply bool_decide_eq_true in Hgo. }
    now rewrite (other_command _ _ _ _ p check_mode w w' rc out err Hc Hget
                   Hexec Hrun).
Qed.

(** ** Further properties *)

Lemma safe_command_likes_format (c : string) :
  c ∈ safe_commands -> c ∉ hates_format.
Proof.
  unfold safe_commands, hates_format.
  rewrite !elem_of_union, !elem_of_singleton. intros Hc Hh.
  repeat (destruct Hc as [Hc | Hc]); subst c;
    repeat (destruct Hh as [Hh | Hh]); discriminate Hh.
Qed.

(** X1.  In check mode nothing but a read-only command is ever spawned:
    the run spawns no process at all, or one process, in the request's
    directory, whose sub-command is in the read-only list; and that
    process is always asked for JSON. *)
Theorem check_mode_spawns_only_safe_commands (p : params) (w : World) :
  snd (fst (run p true w)) = [] \/
  exists c : string,
    c ∈ safe_commands /\
    snd (fst (run p true w)) = [(cmdline c (name p) (value p), path p)] /\
    cmdline c (name p) (value p)
    = drush +:+ " " +:+ c +:+ " --nocolor -y --format=json"
        +:+ cmd_extra json_dumps c (name p) (value p).
Proof.
  assert (Hfmt : forall c, c ∈ safe_commands ->
            cmdline c (name p) (value p)
            = drush +:+ " " +:+ c +:+ " --nocolor -y --format=json"
                +:+ cmd_extra json_dumps c (name p) (value p)).
  { intros c Hc. unfold command_line, format.
    rewrite (bool_decide_eq_false_2 _ (safe_command_likes_format c Hc)).
    reflexivity. }
  destruct (run_paths p true w) as
    [ Hill | _ Hout Hs | rc out err w' _ Hs Hn Hv Hrun
    | rc0 out0 err0 w1 rc out err w2 Hcm | rc out err w' Hs Hg Hexec Hrun ];
    cbn.
  - now left.
  - now left.
  - right. exists "variable-get".
    split; [exact variable_get_safe|]. split; [reflexivity|].
    apply Hfmt, variable_get_safe.
  - discriminate Hcm.
  - right. exists (command p). destruct Hexec as [Hcm | Hin];
      [discriminate Hcm|].
    split; [assumption|]. split; [reflexivity|]. now apply Hfmt.
Qed.

(** X2.  The processes a run spawns, in order: none for a request the
    parameter check turns away; otherwise the read of the original value
    for a [variable-set] outside check mode, and then the primary command
    unless check mode holds it back.  All of them run in the request's
    directory. *)
Theorem spawned_processes (p : params) (check_mode : bool) (w : World) :
  snd (fst (run p check_mode w))
  = if valid p then
      ((if String.eqb (command p) "variable-set" && negb check_mode
        then [(baseline_cmd drush p, path p)] else [])
       ++ (if runs_primary p check_mode
           then [(primary_cmd drush json_dumps p check_mode, path p)]
           else []))%list
    else [].
Proof.
  unfold runs_primary, primary_cmd, effective_command.
  destruct (run_paths p check_mode w) as
    [ Hill | -> Hout Hs | rc out err w' -> Hs Hn Hv Hrun
    | rc0 out0 err0 w1 rc out err w2 -> Hs Hn Hv Hbase Hrun
    | rc out err w' Hs Hg Hexec Hrun ];
    cbn.
  - now rewrite valid_ill_formed.
  - rewrite valid_other.
    + apply String.eqb_neq in Hs. rewrite Hs. cbn.
      now rewrite (bool_decide_eq_false_2 _ Hout).
    + assumption.
    + intros Hg. exfalso. apply Hout. rewrite Hg. exact variable_get_safe.
  - rewrite valid_set by assumption. rewrite Hs. cbn.
    now rewrite (bool_decide_eq_true_2 _ variable_get_safe).
  - rewrite valid_set by assumption. now rewrite Hs.
  - rewrite valid_other by assumption.
    apply String.eqb_neq in Hs. rewrite Hs. cbn.
    destruct Hexec as [-> | Hin]; [reflexivity|].
    rewrite (bool_decide_eq_true_2 _ Hin). now rewrite orb_true_r.
Qed.

(** X3.  Check mode makes no difference to a read-only command: the
    outcome, the processes and the last world are the same in both
    modes. *)
Theorem safe_command_ignores_check_mode (p : params) (w : World) :
  command p ∈ safe_commands -> run p true w = run p false w.
Proof.
  intros Hin.
  assert (Hs : command p <> "variable-set").
  { intros E. rewrite E in Hin. exact (variable_set_unsafe Hin). }
  destruct (String.eqb_spec (command p) "variable-get") as [Hg | Hg].
  - destruct (String.eqb_spec (name p) "") as [Hn | Hn].
    + rewrite !ill_formed_rejected by (left; auto). reflexivity.
    + destruct (run_command_os (cmdline (command p) (name p) (value p))
                  (path p) w) as [[[rc out] err] w'] eqn:Hrun.
      rewrite (other_command _ _ _ _ p true w w' rc out err Hs
                 (fun _ => Hn) (or_intror Hin) Hrun).
      now rewrite (other_command _ _ _ _ p false w w' rc out err Hs
                     (fun _ => Hn) (or_intror Hin) Hrun).
  - destruct (run_command_os (cmdline (command p) (name p) (value p))
                (path p) w) as [[[rc out] err] w'] eqn:Hrun.
    assert (Hn : command p = "variable-get" -> name p <> "") by congruence.
    rewrite (other_command _ _ _ _ p true w w' rc out err Hs Hn
               (or_intror Hin) Hrun).
    now rewrite (other_command _ _ _ _ p false w w' rc out err Hs Hn
                   (or_intror Hin) Hrun).
Qed.

(** X4.  A nonzero exit of the primary command always fails the module:
    the message is the command's standard error, and the result carries
    its exit code, output, standard error and command line as they are.
    The output is not decoded. *)
Theorem nonzero_exit_fails_with_diagnostics (p : params) (check_mode : bool)
    (w w' : World) rc out err :
  well_formed p -> runs_primary p check_mode = true ->
  run_command_os (primary_cmd drush json_dumps p check_mode) (path p)
    (world_before_primary run_command_os drush p check_mode w)
    = ((rc, out, err), w') ->
  rc <> 0 ->
  exists r,
    fst (fst (run p check_mode w)) = fail_json err r /\
    r !! "rc" = Some (PInt rc) /\
    r !! "stdout" = Some (PStr out) /\
    r !! "stderr" = Some (PStr err) /\
    r !! "cmd" = Some (PStr (primary_cmd drush json_dumps p check_mode)).
Proof.
  intros Hwf Hgo Hrun Hrc.
  destruct (primary_ran p check_mode w w' rc out err Hwf Hgo Hrun) as [-> _].
  apply Z.eqb_neq in Hrc.
  unfold settled, check_set_outcome, real_set_outcome, other_outcome,
    primary_cmd, effective_command.
  destruct (String.eqb_spec (command p) "variable-set") as [Hs | Hs].
  - destruct check_mode; cbn.
    + rewrite Hrc. eexists. split; [reflexivity|]. apply ran_own.
    + destruct (run_command_os (baseline_cmd drush p) (path p) w)
        as [[[rc0 out0] err0] w1]. cbn. rewrite Hrc, Hs.
      eexists. split; [reflexivity|].
      rewrite !(lookup_insert_ne _ "changed") by discriminate.
      apply ran_own.
  - cbn. rewrite Hrc. eexists. split; [reflexivity|].
    destruct (bool_decide (command p ∈ safe_commands));
      rewrite ?(lookup_insert_ne _ "changed") by discriminate;
      apply ran_own.
Qed.



(** X6.  The one local that is ever read unbound is [rc], and only on the
    path where check mode holds the command back: the command is outside
    the read-only list, is not [variable-set], and nothing was spawned.
    In particular [original_value] is bound whenever line 190 reads
    it. *)
Theorem unbound_local_only_when_skipped (p : params) (check_mode : bool)
    (w : World) (var : string) :
  fst (fst (run p check_mode w)) = raised (UnboundLocalError var) ->
  var = "rc" /\ check_mode = true /\ (command p ∉ safe_commands) /\
  command p <> "variable-set" /\ snd (fst (run p check_mode w)) = [].
Proof.
  destruct (run_paths p check_mode w) as
    [ Hill | Hcm Hout Hs | rc out err w' Hcm Hs Hn Hv Hrun
    | rc0 out0 err0 w1 rc out err w2 Hcm Hs Hn Hv Hbase Hrun
    | rc out err w' Hs Hg Hexec Hrun ];
    cbn; intros H.
  - discriminate H.
  - injection H as <-. auto.
  - exfalso. unfold check_set_outcome in H.
    destruct (rc =? 0); [|discriminate H].
    destruct (loads_or_empty json_loads out); discriminate H.
  - exfalso. unfold real_set_outcome in H.
    destruct (rc =? 0); [|discriminate H].
    destruct (loads_or_empty json_loads out); discriminate H.
  - exfalso. unfold other_outcome in H.
    destruct (rc =? 0); [|discriminate H].
    destruct (loads_or_empty json_loads out); discriminate H.
Qed.

Lemma ran_non_empty (cmd : string) rc out err (seed : dict) :
  ran cmd rc out err seed <> ∅.
Proof. unfold ran. apply insert_non_empty. Qed.

(** X7.  The module fails without a result, before anything is spawned,
    exactly for the requests the parameter check turns away: a
    [variable-get] without name, a [variable-set] without name or
    value. *)
Theorem rejected_iff_ill_formed (p : params) (check_mode : bool) (w : World) :
  (exists msg, fst (fst (run p check_mode w)) = fail_json msg ∅)
  <-> ill_formed p.
Proof.
  split.
  - intros [msg H]. revert H.
    destruct (run_paths p check_mode w) as
      [ Hill | Hcm Hout Hs | rc out err w' Hcm Hs Hn Hv Hrun
      | rc0 out0 err0 w1 rc out err w2 Hcm Hs Hn Hv Hbase Hrun
      | rc out err w' Hs Hg Hexec Hrun ];
      cbn; intros H; [assumption | discriminate H | exfalso..].
    + unfold check_set_outcome in H.
      destruct (rc =? 0).
      * destruct (loads_or_empty json_loads out); discriminate H.
      * apply (f_equal failed_with) in H.
        exact (ran_non_empty _ _ _ _ _ H).
    + unfold real_set_outcome in H.
      destruct (rc =? 0).
      * destruct (loads_or_empty json_loads out); discriminate H.
      * apply (f_equal failed_with) in H.
        exact (insert_non_empty _ _ _ H).
    + unfold other_outcome in H.
      destruct (rc =? 0).
      * destruct (loads_or_empty json_loads out); discriminate H.
      * apply (f_equal failed_with) in H.
        destruct (bool_decide (command p ∈ safe_commands)).
        -- exact (ran_non_empty _ _ _ _ _ H).
        -- exact (insert_non_empty _ _ _ H).
  - intros Hill. rewrite ill_formed_rejected by assumption. cbn. eauto.
Qed.

Lemma seed_unchanged : result_seed !! "changed" = Some (PBool false).
Proof. reflexivity. Qed.

(** X8.  A read-only command other than [variable-get] never reports a
    change, in either mode and whatever it exits with: the result, handed
    back by [exit_json] or by [fail_json], has [changed = False]. *)
Theorem safe_command_reports_no_change (p : params) (check_mode : bool)
    (w w' : World) rc out err :
  command p ∈ safe_commands -> command p <> "variable-get" ->
  run_command_os (cmdline (command p) (name p) (value p)) (path p) w
    = ((rc, out, err), w') ->
  (rc = 0 /\ loads_or_empty json_loads out = None /\
   fst (fst (run p check_mode w)) = raised (ValueError out)) \/
  (exists r,
     (fst (fst (run p check_mode w)) = exit_json r \/
      fst (fst (run p check_mode w)) = fail_json err r) /\
     r !! "changed" = Some (PBool false)).
Proof.
  intros Hin Hg Hrun.
  assert (Hs : command p <> "variable-set").
  { intros E. rewrite E in Hin. exact (variable_set_unsafe Hin). }
  rewrite (other_command _ _ _ _ p check_mode w w' rc out err Hs
             (fun E => False_ind _ (Hg E)) (or_intror Hin) Hrun). cbn.
  rewrite (bool_decide_eq_true_2 _ Hin).
  apply String.eqb_neq in Hg. rewrite Hg.
  destruct (Z.eqb_spec rc 0) as [Hz | Hz].
  - destruct (loads_or_empty json_loads out) as [v|]; [right | left; auto].
    eexists. split; [left; reflexivity|].
    destruct (String.eqb out "");
      rewrite ?(lookup_insert_ne _ "drush") by discriminate;
      rewrite ran_lookup by discriminate; exact seed_unchanged.
  - right. eexists. split; [right; reflexivity|].
    rewrite ran_lookup by discriminate. exact seed_unchanged.
Qed.

(** X9.  Outside check mode a command that is neither read-only nor
    [variable-set] always reports a change, also when it fails: the result
    of [exit_json] and the result of [fail_json] both have
    [changed = True]. *)
Theorem unsafe_command_reports_change_even_on_failure (p : params)
    (w w' : World) rc out err :
  command p ∉ safe_commands -> command p <> "variable-set" ->
  run_command_os (cmdline (command p) (name p) (value p)) (path p) w
    = ((rc, out, err), w') ->
  (rc = 0 /\ loads_or_empty json_loads out = None /\
   fst (fst (run p false w)) = raised (ValueError out)) \/
  (exists r,
     (rc = 0 /\ fst (fst (run p false w)) = exit_json r \/
      rc <> 0 /\ fst (fst (run p false w)) = fail_json err r) /\
     r !! "changed" = Some (PBool true)).
Proof.
  intros Hout Hs Hrun.
  assert (Hg : command p = "variable-get" -> name p <> "").
  { intros E. exfalso. apply Hout. rewrite E. exact variable_get_safe. }
  rewrite (other_command _ _ _ _ p false w w' rc out err Hs Hg
             (or_introl eq_refl) Hrun). cbn.
  rewrite (bool_decide_eq_false_2 _ Hout).
  destruct (Z.eqb_spec rc 0) as [Hz | Hz].
  - destruct (loads_or_empty json_loads out) as [v|]; [right | left; auto].
    eexists. split; [left; split; [assumption | reflexivity]|].
    apply lookup_insert_eq.
  - right. eexists. split; [right; split; [assumption | reflexivity]|].
    apply lookup_insert_eq.
Qed.




(** X12.  A requested value that ends in white space can never be found
    unchanged: the original value is right-stripped before the comparison,
    so a [variable-set] outside check mode reports a change on every run,
    whatever is stored. *)
Theorem value_ending_in_space_always_changes (p : params)
    (w w1 w2 : World) rc0 out0 err0 rc out err :
  command p = "variable-set" -> name p <> "" ->
  ends_in_space (value p) = true ->
  run_command_os (baseline_cmd drush p) (path p) w = ((rc0, out0, err0), w1) ->
  run_command_os (cmdline "variable-set" (name p) (value p)) (path p) w1
    = ((rc, out, err), w2) ->
  (rc = 0 /\ loads_or_empty json_loads out = None /\
   fst (fst (run p false w)) = raised (ValueError out)) \/
  (exists r,
     (fst (fst (run p false w)) = exit_json r \/
      fst (fst (run p false w)) = fail_json err r) /\
     r !! "changed" = Some (PBool true)).
Proof.
  intros Hc Hn Hsp Hbase Hrun.
  assert (Hv : value p <> "") by (intros E; rewrite E in Hsp; discriminate).
  rewrite (real_set _ _ _ _ _ _ _ _ _ _ _ _ _ _ Hc Hn Hv Hbase Hrun). cbn.
  assert (Hne : String.eqb (if rc0 =? 0 then rstrip out0 else "") (value p)
                = false).
  { apply String.eqb_neq. destruct (rc0 =? 0); [|congruence].
    intros E. destruct (rstrip_spec out0) as (t & _ & _ & He).
    rewrite E in He. congruence. }
  rewrite Hne. cbn.
  destruct (Z.eqb_spec rc 0) as [Hz | Hz].
  - destruct (loads_or_empty json_loads out) as [v|]; [right | left; auto].
    eexists. split; [left; reflexivity|]. apply lookup_insert_eq.
  - right. eexists. split; [right; reflexivity|]. apply lookup_insert_eq.
Qed.


Lemma insert_keeps (m : dict) (i k : string) (x : pyval) :
  is_Some (m !! k) -> is_Some (<[i := x]> m !! k).
Proof.
  intros H. destruct (decide (i = k)) as [-> | Hne].
  - rewrite lookup_insert_eq. eauto.
  - now rewrite lookup_insert_ne.
Qed.

Lemma documented_ran (cmd : string) rc out err (seed : dict) :
  is_Some (seed !! "changed") -> documented_keys (ran cmd rc out err seed).
Proof.
  intros Hseed. unfold documented_keys.
  destruct (ran_own cmd rc out err seed) as (H1 & H2 & H3 & H4).
  rewrite H1, H2, H3, H4, ran_lookup by discriminate. eauto 10.
Qed.

Lemma documented_insert (r : dict) (k : string) (x : pyval) :
  documented_keys r -> documented_keys (<[k := x]> r).
Proof.
  unfold documented_keys. intros (H1 & H2 & H3 & H4 & H5).
  repeat split; now apply insert_keeps.
Qed.

(** X14.  Whatever the request, a result handed back by [exit_json] has
    the keys [changed], [rc], [stdout], [stderr] and [cmd]; so has a
    result handed back by [fail_json], unless it is the empty result of a
    request the parameter check turned away. *)
Theorem results_have_documented_keys (p : params) (check_mode : bool)
    (w : World) :
  match fst (fst (run p check_mode w)) with
  | exit_json r => documented_keys r
  | fail_json _ r => r = ∅ \/ documented_keys r
  | raised _ => True
  end.
Proof.
  assert (Hseed : is_Some (result_seed !! "changed"))
    by (rewrite seed_unchanged; eauto).
  destruct (run_paths p check_mode w) as
    [ Hill | Hcm Hout Hs | rc out err w' Hcm Hs Hn Hv Hrun
    | rc0 out0 err0 w1 rc out err w2 Hcm Hs Hn Hv Hbase Hrun
    | rc out err w' Hs Hg Hexec Hrun ];
    cbn; [now left | exact I | ..].
  - unfold check_set_outcome. destruct (rc =? 0).
    + destruct (loads_or_empty json_loads out); [|exact I].
      now apply documented_insert, documented_insert, documented_ran.
    + right. now apply documented_ran.
  - unfold real_set_outcome.
    assert (Hd : forall o, documented_keys
               (ran (cmdline "variable-set" (name p) (value p)) rc out err
                  (<["original_value" := PStr o]> result_seed))).
    { intros o. apply documented_ran. now apply insert_keeps. }
    destruct (rc =? 0).
    + destruct (loads_or_empty json_loads out); [|exact I].
      apply documented_insert. destruct (String.eqb out ""); [apply Hd|].
      apply documented_insert, Hd.
    + right. apply documented_insert, Hd.
  - unfold other_outcome.
    assert (Hmark : forall r : dict, documented_keys r ->
              documented_keys
                (if bool_decide (command p ∈ safe_commands) then r
                 else <["changed" := PBool true]> r)).
    { intros r Hr. destruct (bool_decide (command p ∈ safe_commands));
        [assumption | now apply documented_insert]. }
    destruct (rc =? 0).
    + destruct (loads_or_empty json_loads out); [|exact I].
      apply Hmark. destruct (String.eqb (command p) "variable-get").
      * now apply documented_insert, documented_ran.
      * destruct (String.eqb out "");
          [|apply documented_insert]; now apply documented_ran.
    + right. now apply Hmark, documented_ran.
Qed.

(** X15.  A [variable-set] in check mode is the [variable-get] of the same
    name and value with the comparison added: both spawn the same process
    and leave the same world; where the get fails or cannot be decoded, so
    does the set, with the same result; and where the get exits normally,
    the set exits with the get's result and [changed] set from the payload
    the get stored under the name. *)
Theorem check_mode_set_is_get_then_compare (p : params) (w : World) :
  command p = "variable-set" -> name p <> "" -> value p <> "" ->
  snd (fst (run p true w))
    = snd (fst (run (Params (path p) "variable-get" (name p) (value p))
                  false w)) /\
  snd (run p true w)
    = snd (run (Params (path p) "variable-get" (name p) (value p)) false w)
  /\
  match fst (fst (run (Params (path p) "variable-get" (name p) (value p))
                    false w)) with
  | exit_json r =>
      exists v : pyval,
        r !! name p = Some v /\
        fst (fst (run p true w))
        = exit_json (<["changed" := PBool (negb (py_eq_str v (value p)))]> r)
  | o => fst (fst (run p true w)) = o
  end.
Proof.
  intros Hc Hn Hv.
  destruct (run_command_os (cmdline "variable-get" (name p) (value p))
              (path p) w) as [[[rc out] err] w'] eqn:Hrun.
  rewrite (check_mode_set _ _ _ _ _ _ _ _ _ _ Hc Hn Hv Hrun).
  rewrite (other_command _ _ _ _
             (Params (path p) "variable-get" (name p) (value p)) false w w'
             rc out err);
    [ | discriminate | intros _; exact Hn | now left | exact Hrun ].
  cbn. rewrite (bool_decide_eq_true_2 _ variable_get_safe).
  repeat split.
  destruct (rc =? 0); [|reflexivity].
  destruct (loads_or_empty json_loads out) as [v|]; [|reflexivity].
  exists v. split; [apply lookup_insert_eq | reflexivity].
Qed.

End AdapterPaths.

(** ** The further properties on the scripted world *)

Lemma get_request_safe : command Fixture.get_request ∈ safe_commands.
Proof. exact variable_get_safe. Defined.

Lemma status_request_safe : command Fixture.status_request ∈ safe_commands.
Proof. unfold safe_commands. cbn. set_solver. Defined.

Lemma updb_request_unsafe : command Scenario.updb_request ∉ safe_commands.
Proof. apply (bool_decide_unpack _). vm_compute. exact I. Defined.

Lemma status_request_well_formed : well_formed Fixture.status_request.
Proof. split; intros H; discriminate H. Defined.


(** X3 at the module's example get. *)
Lemma safe_command_ignores_check_mode_witness :
  (command Fixture.get_request ∈ safe_commands) /\
  Fixture.run Fixture.get_request true [(0, "0", "")]
  = Fixture.run Fixture.get_request false [(0, "0", "")].
Proof.
  split; [exact get_request_safe|].
  exact (safe_command_ignores_check_mode Fixture.spawn Fixture.drush_bin
           Fixture.dumps Fixture.loads Fixture.get_request [(0, "0", "")]
           get_request_safe).
Defined.

(** X4 at a status query that exits 2. *)
Lemma nonzero_exit_fails_with_diagnostics_witness :
  well_formed Fixture.status_request /\
  runs_primary Fixture.status_request false = true /\
  Fixture.spawn Scenario.status_cmd Fixture.site
    [(2, "", "command not found")]
    = ((2, "", "command not found"), []) /\
  2 <> 0 /\
  exists r,
    fst (fst (Fixture.run Fixture.status_request false
                [(2, "", "command not found")]))
    = fail_json "command not found" r /\
    r !! "rc" = Some (PInt 2) /\
    r !! "stdout" = Some (PStr "") /\
    r !! "stderr" = Some (PStr "command not found") /\
    r !! "cmd" = Some (PStr Scenario.status_cmd).
Proof.
  assert (H2 : runs_primary Fixture.status_request false = true)
    by reflexivity.
  assert (H3 : Fixture.spawn Scenario.status_cmd Fixture.site
                 [(2, "", "command not found")]
               = ((2, "", "command not found"), [])) by reflexivity.
  assert (H4 : 2 <> 0) by discriminate.
  split; [exact status_request_well_formed|].
  repeat (split; [assumption|]).
  exact (nonzero_exit_fails_with_diagnostics Fixture.spawn Fixture.drush_bin
           Fixture.dumps Fixture.loads Fixture.status_request false
           [(2, "", "command not found")] [] 2 "" "command not found"
           status_request_well_formed H2 H3 H4).
Defined.


(** X6 at [drush cc] in check mode. *)
Lemma unbound_local_only_when_skipped_witness :
  fst (fst (Fixture.run Fixture.cc_request true []))
    = raised (UnboundLocalError "rc") /\
  "rc" = "rc" /\ true = true /\
  (command Fixture.cc_request ∉ safe_commands) /\
  command Fixture.cc_request <> "variable-set" /\
  snd (fst (Fixture.run Fixture.cc_request true [])) = [].
Proof.
  assert (H : fst (fst (Fixture.run Fixture.cc_request true []))
              = raised (UnboundLocalError "rc")) by reflexivity.
  split; [exact H|].
  exact (unbound_local_only_when_skipped Fixture.spawn Fixture.drush_bin
           Fixture.dumps Fixture.loads Fixture.cc_request true [] "rc" H).
Defined.

(** X8 at a status query, in check mode, that prints nothing. *)
Lemma safe_command_reports_no_change_witness :
  (command Fixture.status_request ∈ safe_commands) /\
  command Fixture.status_request <> "variable-get" /\
  Fixture.spawn Scenario.status_cmd Fixture.site [(0, "", "")]
    = ((0, "", ""), []) /\
  ((0 = 0 /\ loads_or_empty Fixture.loads "" = None /\
    fst (fst (Fixture.run Fixture.status_request true [(0, "", "")]))
    = raised (ValueError "")) \/
   (exists r,
      (fst (fst (Fixture.run Fixture.status_request true [(0, "", "")]))
       = exit_json r \/
       fst (fst (Fixture.run Fixture.status_request true [(0, "", "")]))
       = fail_json "" r) /\
      r !! "changed" = Some (PBool false))).
Proof.
  assert (H2 : command Fixture.status_request <> "variable-get")
    by discriminate.
  assert (H3 : Fixture.spawn Scenario.status_cmd Fixture.site [(0, "", "")]
               = ((0, "", ""), [])) by reflexivity.
  split; [exact status_request_safe|].
  repeat (split; [assumption|]).
  exact (safe_command_reports_no_change Fixture.spawn Fixture.drush_bin
           Fixture.dumps Fixture.loads Fixture.status_request true
           [(0, "", "")] [] 0 "" "" status_request_safe H2 H3).
Defined.

(** X9 at a database update that fails. *)
Lemma unsafe_command_reports_change_even_on_failure_witness :
  (command Scenario.updb_request ∉ safe_commands) /\
  command Scenario.updb_request <> "variable-set" /\
  Fixture.spawn Scenario.updb_cmd Fixture.site [(1, "", "update failed")]
    = ((1, "", "update failed"), []) /\
  ((1 = 0 /\ loads_or_empty Fixture.loads "" = None /\
    fst (fst (Fixture.run Scenario.updb_request false
                [(1, "", "update failed")]))
    = raised (ValueError "")) \/
   (exists r,
      (1 = 0 /\
       fst (fst (Fixture.run Scenario.updb_request false
                   [(1, "", "update failed")])) = exit_json r \/
       1 <> 0 /\
       fst (fst (Fixture.run Scenario.updb_request false
                   [(1, "", "update failed")]))
       = fail_json "update failed" r) /\
      r !! "changed" = Some (PBool true))).
Proof.
  assert (H2 : command Scenario.updb_request <> "variable-set")
    by discriminate.
  assert (H3 : Fixture.spawn Scenario.updb_cmd Fixture.site
                 [(1, "", "update failed")]
               = ((1, "", "update failed"), [])) by reflexivity.
  split; [exact updb_request_unsafe|].
  repeat (split; [assumption|]).
  exact (unsafe_command_reports_change_even_on_failure Fixture.spawn
           Fixture.drush_bin Fixture.dumps Fixture.loads
           Scenario.updb_request [(1, "", "update failed")] [] 1 ""
           "update failed" updb_request_unsafe H2 H3).
Defined.



(** X12 at a slogan that ends in a space and is already stored as
    requested: the set still counts as a change. *)
Lemma value_ending_in_space_always_changes_witness :
  command Scenario.spaced_request = "variable-set" /\
  name Scenario.spaced_request <> "" /\
  ends_in_space (value Scenario.spaced_request) = true /\
  Fixture.spawn Scenario.spaced_baseline_cmd Fixture.site
    [(0, "Hello ", ""); (0, "", "")]
    = ((0, "Hello ", ""), [(0, "", "")]) /\
  Fixture.spawn Scenario.spaced_cmd Fixture.site [(0, "", "")]
    = ((0, "", ""), []) /\
  ((0 = 0 /\ loads_or_empty Fixture.loads "" = None /\
    fst (fst (Fixture.run Scenario.spaced_request false
                [(0, "Hello ", ""); (0, "", "")]))
    = raised (ValueError "")) \/
   (exists r,
      (fst (fst (Fixture.run Scenario.spaced_request false
                   [(0, "Hello ", ""); (0, "", "")])) = exit_json r \/
       fst (fst (Fixture.run Scenario.spaced_request false
                   [(0, "Hello ", ""); (0, "", "")])) = fail_json "" r) /\
      r !! "changed" = Some (PBool true))).
Proof.
  assert (H1 : command Scenario.spaced_request = "variable-set")
    by reflexivity.
  assert (H2 : name Scenario.spaced_request <> "") by discriminate.
  assert (H3 : ends_in_space (value Scenario.spaced_request) = true)
    by reflexivity.
  assert (H4 : Fixture.spawn Scenario.spaced_baseline_cmd Fixture.site
                 [(0, "Hello ", ""); (0, "", "")]
               = ((0, "Hello ", ""), [(0, "", "")])) by reflexivity.
  assert (H5 : Fixture.spawn Scenario.spaced_cmd Fixture.site [(0, "", "")]
               = ((0, "", ""), [])) by reflexivity.
  repeat (split; [assumption|]).
  exact (value_ending_in_space_always_changes Fixture.spawn
           Fixture.drush_bin Fixture.dumps Fixture.loads
           Scenario.spaced_request [(0, "Hello ", ""); (0, "", "")]
           [(0, "", "")] [] 0 "Hello " "" 0 "" "" H1 H2 H3 H4 H5).
Defined.


(** X15 at the example set request: in check mode it spawns what the get
    of the same name and value spawns, and leaves the same world. *)
Lemma check_mode_set_is_get_then_compare_witness :
  command Fixture.set_request = "variable-set" /\
  name Fixture.set_request <> "" /\
  value Fixture.set_request <> "" /\
  snd (fst (Fixture.run Fixture.set_request true
              [(0, Fixture.dumps "1800", "")]))
    = snd (fst (Fixture.run Scenario.get_of_set false
                  [(0, Fixture.dumps "1800", "")])) /\
  snd (Fixture.run Fixture.set_request true [(0, Fixture.dumps "1800", "")])
    = snd (Fixture.run Scenario.get_of_set false
             [(0, Fixture.dumps "1800", "")]) /\
  match fst (fst (Fixture.run Scenario.get_of_set false
                    [(0, Fixture.dumps "1800", "")])) with
  | exit_json r =>
      exists v : pyval,
        r !! "page_cache_maximum_age" = Some v /\
        fst (fst (Fixture.run Fixture.set_request true
                    [(0, Fixture.dumps "1800", "")]))
        = exit_json (<["changed" := PBool (negb (py_eq_str v "3600"))]> r)
  | o =>
      fst (fst (Fixture.run Fixture.set_request true
                  [(0, Fixture.dumps "1800", "")])) = o
  end.
Proof.
  assert (H1 : command Fixture.set_request = "variable-set") by reflexivity.
  assert (H2 : name Fixture.set_request <> "") by discriminate.
  assert (H3 : value Fixture.set_request <> "") by discriminate.
  repeat (split; [assumption|]).
  exact (check_mode_set_is_get_then_compare Fixture.spawn Fixture.drush_bin
           Fixture.dumps Fixture.loads Fixture.set_request
           [(0, Fixture.dumps "1800", "")] H1 H2 H3).
Defined.
